(** * lunar_year: the sexagenary-cycle lookup of [lunar.py]

    A shallow embedding of the class [LunarYear] of [src/lunar.py] and the
    properties of its natural-language specification.

    Conventions of the embedding.
    - A Python [str] is a [string] holding its UTF-8 bytes.  Splitting on
      the ASCII characters tab and newline and comparing for equality act
      on the bytes exactly as on the code points.  White space and decimal
      digits are the ASCII ones: the embedded table and the decimal form
      of an integer hold no others, and a statement about an arbitrary
      text asks for [Str.isascii].
    - A Python [int] is a [Z]; [%] is [Z.modulo] (both take the sign of the
      divisor); conversions between integers and text are unbounded.
    - A Python [float] is a [spec_float] (sign, mantissa, exponent).
    - A Python [dict] is a [gmap], a [set] a [gset], a [list] a [list].
    - An exception is a value of [exn]; a call returns a [result].
    - The class attribute [_TABLE] and the instances live in a [world]
      that every call receives and returns. *)

From Stdlib Require Import ZArith Ascii String Lia.
From Stdlib Require Import Floats.SpecFloat.
From Stdlib Require Import Decimal DecimalString DecimalZ.
From stdpp Require Import gmap strings list sorting.

Local Open Scope string_scope.
Local Open Scope Z_scope.

(** ** Python's text primitives used by the module *)

Module Str.

(** [str.isspace] on an ASCII character, the white space of [str.strip]:
    TAB, LF, VT, FF, CR, the separators FS, GS, RS, US, and the space. *)
Definition isspace (c : ascii) : bool :=
  let n := Z.of_N (N_of_ascii c) in
  ((9 <=? n) && (n <=? 13)) || ((28 <=? n) && (n <=? 32)).

(** The white space [int] skips around a literal: TAB, LF, VT, FF, CR and
    the space, without the four separators. *)
Definition isspace_int (c : ascii) : bool :=
  let n := Z.of_N (N_of_ascii c) in
  ((9 <=? n) && (n <=? 13)) || (n =? 32).


Fixpoint lstrip_by (space : ascii -> bool) (s : string) : string :=
  match s with
  | EmptyString => EmptyString
  | String c r => if space c then lstrip_by space r else s
  end.

Fixpoint rstrip_by (space : ascii -> bool) (s : string) : string :=
  match s with
  | EmptyString => EmptyString
  | String c r =>
      match rstrip_by space r with
      | EmptyString => if space c then EmptyString else String c EmptyString
      | r' => String c r'
      end
  end.

(** [s.strip()] *)
Definition strip (s : string) : string :=
  rstrip_by isspace (lstrip_by isspace s).

(** [s.split(sep)] for a one-character separator: empty fields are kept and
    the result is never empty. *)
Fixpoint split (sep : ascii) (s : string) : list string :=
  match s with
  | EmptyString => [EmptyString]
  | String c r =>
      if Ascii.eqb c sep then EmptyString :: split sep r
      else match split sep r with
           | h :: t => String c h :: t
           | [] => [String c EmptyString]
           end
  end.

Definition digit_val (c : ascii) : option Z :=
  let n := Z.of_N (N_of_ascii c) in
  if (48 <=? n) && (n <=? 57) then Some (n - 48) else None.

(** The digit part of a base-10 integer literal: one or more digits, where
    a single underscore may stand between two digits. *)
Fixpoint int_digits (s : string) (acc : Z) (prev_digit : bool) : option Z :=
  match s with
  | EmptyString => if prev_digit then Some acc else None
  | String c r =>
      if Ascii.eqb c "_" then
        if prev_digit then int_digits r acc false else None
      else match digit_val c with
           | Some d => int_digits r (10 * acc + d) true
           | None => None
           end
  end.

(** [int(s)] for a text [s]: surrounding white space is dropped, one sign
    is allowed, the rest must be digits.  [None] stands for [ValueError]. *)
Definition int_of_str (s : string) : option Z :=
  match rstrip_by isspace_int (lstrip_by isspace_int s) with
  | EmptyString => None
  | String c r =>
      if Ascii.eqb c "+" then int_digits r 0 false
      else if Ascii.eqb c "-" then Z.opp <$> int_digits r 0 false
      else int_digits (String c r) 0 false
  end.

(** [str(z)] for an integer [z]. *)
Definition str_of_int (z : Z) : string := NilZero.string_of_int (Z.to_int z).

(** [sep.join(l)] is [String.concat sep l]; [sorted(l)] on texts orders
    them lexicographically by character code. *)
Definition sorted (l : list string) : list string :=
  merge_sort (fun a b => Is_true (String.leb a b)) l.

End Str.

(** ** Values, exceptions and results *)

(** The values a caller can pass as a year. *)
Inductive pyval : Type :=
  | PyInt (z : Z)
  | PyBool (b : bool)
  | PyFloat (f : spec_float)
  | PyStr (s : string)
  | PyNone.

(** [type(v).__name__] *)
Definition type_name (v : pyval) : string :=
  match v with
  | PyInt _ => "int"
  | PyBool _ => "bool"
  | PyFloat _ => "float"
  | PyStr _ => "str"
  | PyNone => "NoneType"
  end.

Inductive pykey : Type :=
  | KInt (z : Z)
  | KStr (s : string).

Inductive exn : Type :=
  | TypeError (msg : string)
  | ValueError (msg : string)
  | OverflowError (msg : string)
  | AttributeError (msg : string)
  | KeyError (key : pykey).

Inductive result (A : Type) : Type :=
  | Ok (a : A)
  | Raise (e : exn).
Arguments Ok {A} a.
Arguments Raise {A} e.

(** [int(f)] for a float: truncation toward zero; NaN and the infinities
    have no integer value. *)
Definition int_of_float (f : spec_float) : result Z :=
  match f with
  | S754_zero _ => Ok 0
  | S754_infinity _ => Raise (OverflowError "cannot convert float infinity to integer")
  | S754_nan => Raise (ValueError "cannot convert float NaN to integer")
  | S754_finite s m e =>
      let a := if 0 <=? e then Z.pos m * 2 ^ e else Z.pos m / 2 ^ (- e) in
      Ok (if s then - a else a)
  end.

(** The builtin [int(v)]. *)
Definition py_int (v : pyval) : result Z :=
  match v with
  | PyInt z => Ok z
  | PyBool b => Ok (if b then 1 else 0)
  | PyFloat f => int_of_float f
  | PyStr s =>
      match Str.int_of_str s with
      | Some z => Ok z
      | None => Raise (ValueError "invalid literal for int() with base 10")
      end
  | PyNone =>
      Raise (TypeError "int() argument must be a string, a bytes-like object or a real number, not 'NoneType'")
  end.

(** ** The class [LunarYear] *)

Module LunarYear.

Definition SUPPORTED_LANGUAGES : gset string :=
  {[ "chi"; "kor"; "jap"; "viet"; "eng" ]}.

Definition MIN_YEAR : Z := 4.
Definition MAX_YEAR : Z := 9999.

Definition NL : ascii := ascii_of_nat 10.
Definition TAB : ascii := ascii_of_nat 9.

(** The text between the triple quotes of [_get_year], byte for byte: sixty
    rows of ten tab-separated fields, each row indented by eight spaces. *)
Definition table_literal : string :=
"        1	甲子	jiǎ-zǐ	gapja 갑자	kōshi(kasshi)/kinoe-ne	Giáp Tý	Yang Wood Rat	4	57	1984
        2	乙丑	yǐ-chǒu	eulchuk 을축	itchū/kinoto-ushi	Ất Sửu	Yin Wood Ox	5	56	1985
        3	丙寅	bǐng-yín	byeongin 병인	heiin/hinoe-tora	Bính Dần	Yang Fire Tiger	6	55	1986
        4	丁卯	dīng-mǎo	jeongmyo 정묘	teibō/hinoto-u	Đinh Mão	Yin Fire Rabbit	7	54	1987
        5	戊辰	wù-chén	mujin 무진	boshin/tsuchinoe-tatsu	Mậu Thìn	Yang Earth Dragon	8	53	1988
        6	己巳	jǐ-sì	gisa 기사	kishi/tsuchinoto-mi	Kỷ Tỵ	Yin Earth Snake	9	52	1989
        7	庚午	gēng-wǔ	gyeongo 경오	kōgo/kanoe-uma	Canh Ngọ	Yang Metal Horse	10	51	1990
        8	辛未	xīn-wèi	shinmi 신미	shinbi/kanoto-hitsuji	Tân Mùi	Yin Metal Goat	11	50	1991
        9	壬申	rén-shēn	imshin 임신	jinshin/mizunoe-saru	Nhâm Thân	Yang Water Monkey	12	49	1992
        10	癸酉	guǐ-yǒu	gyeyu 계유	kiyū/mizunoto-tori	Quý Dậu	Yin Water Rooster	13	48	1993
        11	甲戌	jiǎ-xū	gapsul 갑술	kōjutsu/kinoe-inu	Giáp Tuất	Yang Wood Dog	14	47	1994
        12	乙亥	yǐ-hài	eulhae 을해	itsugai/kinoto-i	Ât Hợi	Yin Wood Pig	15	46	1995
        13	丙子	bǐng-zǐ	byeongja 병자	heishi/hinoe-ne	Bính Tý	Yang Fire Rat	16	45	1996
        14	丁丑	dīng-chǒu	jeongchuk 정축	teichū/hinoto-ushi	Đinh Sửu	Yin Fire Ox	17	44	1997
        15	戊寅	wù-yín	muin 무인	boin/tsuchinoe-tora	Mậu Dần	Yang Earth Tiger	18	43	1998
        16	己卯	jǐ-mǎo	gimyo 기묘	kibō/tsuchinoto-u	Kỷ Mão	Yin Earth Rabbit	19	42	1999
        17	庚辰	gēng-chén	gyeongjin 경진	kōshin/kanoe-tatsu	Canh Thìn	Yang Metal Dragon	20	41	2000
        18	辛巳	xīn-sì	shinsa 신사	shinshi/kanoto-mi	Tân Tỵ	Yin Metal Snake	21	40	2001
        19	壬午	rén-wǔ	imo 임오	jingo/mizunoe-uma	Nhâm Ngọ	Yang Water Horse	22	39	2002
        20	癸未	guǐ-wèi	gyemi 계미	kibi/mizunoto-hitsuji	Quý Mùi	Yin Water Goat	23	38	2003
        21	甲申	jiǎ-shēn	gapshin 갑신	kōshin/kinoe-saru	Giáp Thân	Yang Wood Monkey	24	37	2004
        22	乙酉	yǐ-yǒu	eulyu 을유	itsuyū/kinoto-tori	Ất Dậu	Yin Wood Rooster	25	36	2005
        23	丙戌	bǐng-xū	byeongsul 병술	heijutsu/hinoe-inu	Bính Tuất	Yang Fire Dog	26	35	2006
        24	丁亥	dīng-hài	jeonghae 정해	teigai/hinoto-i	Đinh Hợi	Yin Fire Pig	27	34	2007
        25	戊子	wù-zǐ	muja 무자	boshi/tsuchinoe-ne	Mậu Tý	Yang Earth Rat	28	33	2008
        26	己丑	jǐ-chǒu	gichuk 기축	kichū/tsuchinoto-ushi	Kỷ Sửu	Yin Earth Ox	29	32	2009
        27	庚寅	gēng-yín	gyeongin 경인	kōin/kanoe-tora	Canh Dần	Yang Metal Tiger	30	31	2010
        28	辛卯	xīn-mǎo	shinmyo 신묘	shinbō/kanoto-u	Tân Mão	Yin Metal Rabbit	31	30	2011
        29	壬辰	rén-chén	imjin 임진	jinshin/mizunoe-tatsu	Nhâm Thìn	Yang Water Dragon	32	29	2012
        30	癸巳	guǐ-sì	gyesa 계사	kishi/mizunoto-mi	Quý Tỵ	Yin Water Snake	33	28	2013
        31	甲午	jiǎ-wǔ	gapo 갑오	kōgo/kinoe-uma	Giáo Ngọ	Yang Wood Horse	34	27	2014
        32	乙未	yǐ-wèi	eulmi 을미	itsubi/kinoto-hitsuji	Ất Mùi	Yin Wood Goat	35	26	2015
        33	丙申	bǐng-shēn	byeongshin 병신	heishin/hinoe-saru	Bính Thân	Yang Fire Monkey	36	25	2016
        34	丁酉	dīng-yǒu	jeongyu 정유	teiyū/hinoto-tori	Đinh Dậu	Yin Fire Rooster	37	24	2017
        35	戊戌	wù-xū	musul 무술	bojutsu/tsuchinoe-inu	Mậu Tuất	Yang Earth Dog	38	23	2018
        36	己亥	jǐ-hài	gihae 기해	kigai/tsuchinoto-i	Kỷ Hợi	Yin Earth Pig	39	22	2019
        37	庚子	gēng-zǐ	gyeongja 경자	kōshi/kanoe-ne	Canh Tý	Yang Metal Rat	40	21	2020
        38	辛丑	xīn-chǒu	shinchuk 신축	shinchū/kanoto-ushi	Tân Sửu	Yin Metal Ox	41	20	2021
        39	壬寅	rén-yín	imin 임인	jin'in/mizunoe-tora	Nhâm Dần	Yang Water Tiger	42	19	2022
        40	癸卯	guǐ-mǎo	gyemyo 계묘	kibō/mizunoto-u	Quý Mão	Yin Water Rabbit	43	18	2023
        41	甲辰	jiǎ-chén	gapjin 갑진	kōshin/kinoe-tatsu	Giáp Thìn	Yang Wood Dragon	44	17	2024
        42	乙巳	yǐ-sì	eulsa 을사	itsushi/kinoto-mi	Ất Tỵ	Yin Wood Snake	45	16	2025
        43	丙午	bǐng-wǔ	byeongo 병오	heigo/hinoe-uma	Bính Ngọ	Yang Fire Horse	46	15	2026
        44	丁未	dīng-wèi	jeongmi 정미	teibi/hinoto-hitsuji	Đinh Mùi	Yin Fire Goat	47	14	2027
        45	戊申	wù-shēn	mushin 무신	boshin/tsuchinoe-saru	Mậu Thân	Yang Earth Monkey	48	13	2028
        46	己酉	jǐ-yǒu	giyu 기유	kiyū/tsuchinoto-tori	Kỷ Dậu	Yin Earth Rooster	49	12	2029
        47	庚戌	gēng-xū	gyeongsul 경술	kōjutsu/kanoe-inu	Canh Tuất	Yang Metal Dog	50	11	2030
        48	辛亥	xīn-hài	shinhae 신해	shingai/kanoto-i	Tân Hợi	Yin Metal Pig	51	10	2031
        49	壬子	rén-zǐ	imja 임자	jinshi/mizunoe-ne	Nhâm Tý	Yang Water Rat	52	9	2032
        50	癸丑	guǐ-chǒu	gyechuk 계축	kichū/mizunoto-ushi	Quý Sửu	Yin Water Ox	53	8	2033
        51	甲寅	jiǎ-yín	gapin 갑인	kōin/kinoe-tora	Giáp Dần	Yang Wood Tiger	54	7	2034
        52	乙卯	yǐ-mǎo	eulmyo 을묘	itsubō/kinoto-u	Ất Mão	Yin Wood Rabbit	55	6	2035
        53	丙辰	bǐng-chén	byeongjin 병진	heishin/hinoe-tatsu	Bính Thìn	Yang Fire Dragon	56	5	2036
        54	丁巳	dīng-sì	jeongsa 정사	teishi/hinoto-mi	Đinh Tỵ	Yin Fire Snake	57	4	2037
        55	戊午	wù-wǔ	muo 무오	bogo/tsuchinoe-uma	Mậu Ngọ	Yang Earth Horse	58	3	2038
        56	己未	jǐ-wèi	gimi 기미	kibi/tsuchinoto-hitsuji	Kỷ Mùi	Yin Earth Goat	59	2	2039
        57	庚申	gēng-shēn	gyeongshin 경신	kōshin/kanoe-saru	Canh Thân	Yang Metal Monkey	60	1	2040
        58	辛酉	xīn-yǒu	shinyu 신유	shin'yū/kanoto-tori	Tân Dậu	Yin Metal Rooster	1	60	2041
        59	壬戌	rén-xū	imsul 임술	jinjutsu/mizunoe-inu	Nhâm Tuất	Yang Water Dog	2	59	2042
        60	癸亥	guǐ-hài	gyehae 계해	kigai/mizunoto-i	Quý Hợi	Yin Water Pig	3	58	2043
        ".

(** The local [table]: the literal after [.strip()]. *)
Definition table : string := Str.strip table_literal.

(** One pass of the loop body of [_get_year] over a line.  [None] is the
    [except (ValueError, IndexError): pass] branch: [int(parts[0])] failed
    or one of [parts[1]] ... [parts[6]] does not exist. *)
Definition parse_row (line : string) : option (Z * gmap string (list string)) :=
  let parts := Str.split TAB (Str.strip line) in
  p0 ← parts !! 0%nat;
  year_order ← Str.int_of_str p0;
  hanja ← parts !! 1%nat;
  p2 ← parts !! 2%nat;
  p3 ← parts !! 3%nat;
  p4 ← parts !! 4%nat;
  p5 ← parts !! 5%nat;
  p6 ← parts !! 6%nat;
  Some (year_order,
        <["eng" := [p6; hanja]]> (<["viet" := [p5; hanja]]>
        (<["jap" := [p4; hanja]]> (<["kor" := [p3; hanja]]>
        (<["chi" := [p2; hanja]]> ∅))))).

(** [table.split('\n')], the lines the loop runs over. *)
Definition lines : list string := Str.split NL table.

Definition _get_year : gmap Z (gmap string (list string)) :=
  fold_left (fun lunar_table line =>
               match parse_row line with
               | Some (year_order, names) => <[year_order := names]> lunar_table
               | None => lunar_table
               end)
            lines ∅.

(** An instance after [__init__] has run to its end. *)
Record instance : Type := {
  gregorian_year : Z;
  year_in_cycle : Z
}.

(** The mutable state of the process: the class attribute [_TABLE]
    ([None] until the first instance is built) and the instances, each
    named by its index. *)
Record world : Type := {
  _TABLE : option (gmap Z (gmap string (list string)));
  heap : list instance
}.

Definition world0 : world := {| _TABLE := None; heap := [] |}.

(** The call [LunarYear(gregorian_year)]: it returns the reference of the
    new instance.  A call that raises leaves no instance behind. *)
Definition __init__ (gregorian_year : pyval) (w : world) : result nat * world :=
  match py_int gregorian_year with
  | Raise (ValueError _) | Raise (TypeError _) =>
      (Raise (TypeError ("Year must be an integer, got " ++ type_name gregorian_year)), w)
  | Raise e => (Raise e, w)
  | Ok y =>
      if negb ((MIN_YEAR <=? y) && (y <=? MAX_YEAR)) then
        (Raise (ValueError ("Year must be between " ++ Str.str_of_int MIN_YEAR
                            ++ " and " ++ Str.str_of_int MAX_YEAR
                            ++ ", got " ++ Str.str_of_int y)), w)
      else
        let self := {| gregorian_year := y;
                       year_in_cycle := ((y - 4) mod 60) + 1 |} in
        let tbl := match _TABLE w with
                   | None => Some _get_year
                   | Some t => Some t
                   end in
        (Ok (length (heap w)), {| _TABLE := tbl; heap := heap w ++ [self] |})
  end.

(** The expression [table[position][lang]] on dictionaries. *)
Definition subscript (t : gmap Z (gmap string (list string)))
    (position : Z) (lang : string) : result (list string) :=
  match t !! position with
  | None => Raise (KeyError (KInt position))
  | Some names =>
      match names !! lang with
      | None => Raise (KeyError (KStr lang))
      | Some item => Ok item
      end
  end.

(** The method [lang] of the instance named [self].  A reference that
    names no instance has no attribute to read. *)
Definition lang (self : nat) (lang : string) (w : world) : result (list string) * world :=
  if bool_decide (lang ∉ SUPPORTED_LANGUAGES) then
    (Raise (ValueError ("Language '" ++ lang ++ "' not supported. Choose from: "
                        ++ String.concat ", " (Str.sorted (elements SUPPORTED_LANGUAGES)))), w)
  else
    match heap w !! self, _TABLE w with
    | None, _ => (Raise (AttributeError "year_in_cycle"), w)
    | Some _, None => (Raise (TypeError "'NoneType' object is not subscriptable"), w)
    | Some o, Some t => (subscript t (year_in_cycle o) lang, w)
    end.

End LunarYear.

(** ** Observations and runs *)

Import LunarYear.

(** The worlds a process can be in: it starts in [world0] and only calls
    the constructor and [lang]. *)
Inductive reachable : world -> Prop :=
  | reach_start : reachable world0
  | reach_init (v : pyval) (w : world) :
      reachable w -> reachable (snd (__init__ v w))
  | reach_lang (self : nat) (code : string) (w : world) :
      reachable w -> reachable (snd (lang self code w)).

(** The cycle position of the instance a constructor call returned. *)
Definition cycle_position (r : result nat * world) : option Z :=
  match r with
  | (Ok self, w) => year_in_cycle <$> heap w !! self
  | (Raise _, _) => None
  end.

(** [LunarYear(v).lang(code)] *)
Definition resolve_lang (v : pyval) (code : string) (w : world)
  : result (list string) :=
  match __init__ v w with
  | (Ok self, w') => fst (lang self code w')
  | (Raise e, _) => Raise e
  end.

(** A caller that calls [self.lang] with each code in turn, catching what
    is raised, and keeps every outcome. *)
Fixpoint run_langs (self : nat) (codes : list string) (w : world)
  : list (result (list string)) * world :=
  match codes with
  | [] => ([], w)
  | code :: rest =>
      let '(r, w1) := lang self code w in
      let '(rs, w2) := run_langs self rest w1 in
      (r :: rs, w2)
  end.






(** What holds of every reachable world: the table, once set, is the
    parsed literal; it is set as soon as an instance exists; and every
    instance holds a year of the valid range with its cycle position. *)
Definition instance_ok (o : instance) : Prop :=
  4 <= gregorian_year o <= 9999
  /\ year_in_cycle o = (gregorian_year o - 4) mod 60 + 1.

Definition world_ok (w : world) : Prop :=
  (_TABLE w = Some _get_year \/ (_TABLE w = None /\ heap w = []))
  /\ Forall instance_ok (heap w).

(** The check of one table entry: the five codes, each with a list of two
    texts whose second is [hanja]. *)
Definition names_ok (names : gmap string (list string)) : Prop :=
  dom names = SUPPORTED_LANGUAGES
  /\ exists hanja : string,
       map_Forall (fun _ item => length item = 2%nat /\ item !! 1%nat = Some hanja) names.

Definition names_okb (names : gmap string (list string)) : bool :=
  bool_decide (dom names = SUPPORTED_LANGUAGES)
  && match names !! "chi" with
     | Some [_; hanja] =>
         bool_decide (map_Forall (fun _ item => length item = 2%nat
                                   /\ item !! 1%nat = Some hanja) names)
     | _ => false
     end.

(** ** Sequences of calls, the loop of [_get_year] on any text, and [main] *)

(** A call of the class's interface. *)
Inductive op : Type :=
  | OpInit (v : pyval)
  | OpLang (self : nat) (code : string).

Definition step (w : world) (a : op) : world :=
  match a with
  | OpInit v => snd (__init__ v w)
  | OpLang self code => snd (lang self code w)
  end.

(** The world after a sequence of calls, whatever each one returned. *)
Definition run (ops : list op) (w : world) : world := fold_left step ops w.

(** The loop body of [_get_year] as a function of the dictionary built so
    far. *)
Definition add_row (lunar_table : gmap Z (gmap string (list string)))
    (line : string) : gmap Z (gmap string (list string)) :=
  match parse_row line with
  | Some (year_order, names) => <[year_order := names]> lunar_table
  | None => lunar_table
  end.

(** The statements of [_get_year] after the literal, run on any text in the
    place of the literal. *)
Definition build (text : string) : gmap Z (gmap string (list string)) :=
  fold_left add_row (Str.split NL (Str.strip text)) ∅.






(** ** Facts about the text primitives *)

Section TextFacts.

Import Str.

Lemma rstrip_uint (d : uint) :
  rstrip_by isspace_int (NilEmpty.string_of_uint d) = NilEmpty.string_of_uint d.
Proof.
  induction d as [|d IH|d IH|d IH|d IH|d IH|d IH|d IH|d IH|d IH|d IH];
    [reflexivity|..];
    cbn [NilEmpty.string_of_uint rstrip_by]; rewrite IH;
    destruct (NilEmpty.string_of_uint d); reflexivity.
Qed.

Lemma lstrip_uint (d : uint) :
  lstrip_by isspace_int (NilEmpty.string_of_uint d) = NilEmpty.string_of_uint d.
Proof. destruct d; reflexivity. Qed.

Lemma strip_uint (d : uint) :
  rstrip_by isspace_int (lstrip_by isspace_int (NilEmpty.string_of_uint d))
  = NilEmpty.string_of_uint d.
Proof. now rewrite lstrip_uint, rstrip_uint. Qed.

Lemma strip_minus_uint (d : uint) :
  rstrip_by isspace_int (lstrip_by isspace_int (String "-" (NilEmpty.string_of_uint d)))
  = String "-" (NilEmpty.string_of_uint d).
Proof.
  change (lstrip_by isspace_int (String "-" ?s)) with (String "-" s).
  cbn [rstrip_by]. rewrite rstrip_uint.
  destruct (NilEmpty.string_of_uint d); reflexivity.
Qed.

(** One step of [int_digits] over a decimal digit. *)
Ltac digit_step :=
  cbn [NilEmpty.string_of_uint int_digits Pos.of_uint_acc Pos.of_uint];
  repeat match goal with
         | |- context [Ascii.eqb ?a ?b] =>
             let v := eval vm_compute in (Ascii.eqb a b) in
             change (Ascii.eqb a b) with v
         | |- context [digit_val ?c] =>
             let v := eval vm_compute in (digit_val c) in
             change (digit_val c) with v
         end;
  cbv iota.

(** Reading the digits of [d] after a non-zero prefix [p]. *)
Lemma int_digits_acc (d : uint) : forall (p : positive) (b : bool),
  d <> Nil \/ b = true ->
  int_digits (NilEmpty.string_of_uint d) (Z.pos p) b
  = Some (Z.pos (Pos.of_uint_acc d p)).
Proof.
  induction d as [|d IH|d IH|d IH|d IH|d IH|d IH|d IH|d IH|d IH|d IH];
    intros p b Hb;
    [ destruct Hb as [Hb| ->]; [congruence | reflexivity] | .. ];
    digit_step; rewrite <- (IH _ true) by auto; f_equal; lia.
Qed.

(** Reading the digits of [d] from the start: leading zeros add nothing. *)
Lemma int_digits_uint (d : uint) : forall b : bool,
  d <> Nil \/ b = true ->
  int_digits (NilEmpty.string_of_uint d) 0 b = Some (Z.of_N (Pos.of_uint d)).
Proof.
  induction d as [|d IH|d IH|d IH|d IH|d IH|d IH|d IH|d IH|d IH|d IH];
    intros b Hb;
    [ destruct Hb as [Hb| ->]; [congruence | reflexivity]
    | digit_step; apply IH; auto
    | digit_step; cbn [Z.of_N]; rewrite <- (int_digits_acc d _ true) by auto;
      reflexivity .. ].
Qed.

Lemma int_of_str_uint (d : uint) :
  d <> Nil ->
  int_of_str (NilEmpty.string_of_uint d) = Some (Z.of_N (Pos.of_uint d)).
Proof.
  intros Hd. unfold int_of_str. rewrite strip_uint.
  rewrite <- (int_digits_uint d false) by auto.
  destruct d; [congruence | reflexivity ..].
Qed.

Lemma int_of_str_minus_uint (d : uint) :
  d <> Nil ->
  int_of_str (String "-" (NilEmpty.string_of_uint d))
  = Some (- Z.of_N (Pos.of_uint d)).
Proof.
  intros Hd. unfold int_of_str. rewrite strip_minus_uint.
  rewrite (int_digits_uint d false) by auto. reflexivity.
Qed.

(** Python reads back the decimal text it prints: [int(str(z)) == z]. *)
Lemma int_of_str_str_of_int (z : Z) : int_of_str (str_of_int z) = Some z.
Proof.
  destruct z as [|p|p]; [reflexivity| |];
    unfold str_of_int; cbn [Z.to_int NilZero.string_of_int];
    pose proof (DecimalPos.Unsigned.to_uint_nonnil p) as Hnil;
    unfold NilZero.string_of_uint;
    destruct (Pos.to_uint p) eqn:E; try congruence; rewrite <- E in *.
  all: try (rewrite int_of_str_uint by auto;
            now rewrite DecimalPos.Unsigned.of_to).
  all: rewrite int_of_str_minus_uint by auto;
       now rewrite DecimalPos.Unsigned.of_to.
Qed.






End TextFacts.

(** ** Facts about the parsed table *)

Section TableFacts.

Lemma names_okb_sound names : names_okb names = true -> names_ok names.
Proof.
  unfold names_okb, names_ok. intros H.
  apply andb_true_iff in H as [Hd Hn].
  apply bool_decide_eq_true in Hd. split; [exact Hd|].
  destruct (names !! "chi") as [[|name [|hanja [|]]]|]; try discriminate.
  exists hanja. now apply bool_decide_eq_true in Hn.
Qed.

Lemma get_year_size : size _get_year = 60%nat.
Proof. vm_compute. reflexivity. Qed.

Lemma get_year_dom : dom _get_year = list_to_set (seqZ 1 60).
Proof. vm_compute. reflexivity. Qed.

Lemma lines_keys : omap (fun line => fst <$> parse_row line) lines = seqZ 1 60.
Proof. vm_compute. reflexivity. Qed.

Lemma get_year_names :
  map_Forall (fun _ names => names_ok names) _get_year.
Proof.
  assert (H : bool_decide (map_Forall (fun (_ : Z) names => names_okb names = true)
                                      _get_year) = true)
    by (vm_compute; reflexivity).
  apply bool_decide_eq_true in H.
  intros position names Hp. apply names_okb_sound. exact (H position names Hp).
Qed.

End TableFacts.

(** ** Facts about the constructor and [lang] *)

Section WorldFacts.

Lemma position_range (y : Z) : 1 <= (y - 4) mod 60 + 1 <= 60.
Proof. pose proof (Z.mod_pos_bound (y - 4) 60). lia. Qed.

(** The constructor sees its argument only through [int]. *)
Lemma init_coerce (v : pyval) (y : Z) (w : world) :
  py_int v = Ok y -> __init__ v w = __init__ (PyInt y) w.
Proof. intros H. unfold __init__. rewrite H. reflexivity. Qed.

Lemma init_int_in (y : Z) (w : world) :
  4 <= y <= 9999 ->
  __init__ (PyInt y) w
  = (Ok (length (heap w)),
     {| _TABLE := match _TABLE w with
                  | None => Some _get_year
                  | Some t => Some t
                  end;
        heap := heap w ++ [{| gregorian_year := y;
                              year_in_cycle := (y - 4) mod 60 + 1 |}] |}).
Proof.
  intros Hy. unfold __init__, MIN_YEAR, MAX_YEAR. cbn [py_int].
  destruct (Z.leb_spec 4 y); [|lia].
  destruct (Z.leb_spec y 9999); [|lia].
  reflexivity.
Qed.

Lemma init_int_out (y : Z) (w : world) :
  y < 4 \/ 9999 < y ->
  __init__ (PyInt y) w
  = (Raise (ValueError ("Year must be between 4 and 9999, got " ++ Str.str_of_int y)), w).
Proof.
  intros Hy. unfold __init__, MIN_YEAR, MAX_YEAR. cbn [py_int].
  destruct (Z.leb_spec 4 y), (Z.leb_spec y 9999); try lia; reflexivity.
Qed.

Lemma init_int_fail (v : pyval) (w : world) :
  (exists msg, py_int v = Raise (ValueError msg))
  \/ (exists msg, py_int v = Raise (TypeError msg)) ->
  __init__ v w = (Raise (TypeError ("Year must be an integer, got " ++ type_name v)), w).
Proof. intros [[msg H]|[msg H]]; unfold __init__; rewrite H; reflexivity. Qed.

Lemma cycle_position_init (y : Z) (w : world) :
  4 <= y <= 9999 ->
  cycle_position (__init__ (PyInt y) w) = Some ((y - 4) mod 60 + 1).
Proof.
  intros Hy. rewrite init_int_in by assumption. cbn [cycle_position heap].
  now rewrite list_lookup_middle.
Qed.

Lemma lang_world (self : nat) (code : string) (w : world) :
  snd (lang self code w) = w.
Proof.
  unfold lang. case_bool_decide; [reflexivity|].
  destruct (heap w !! self), (_TABLE w); reflexivity.
Qed.

Lemma run_langs_world (self : nat) (codes : list string) (w : world) :
  snd (run_langs self codes w) = w.
Proof.
  induction codes as [|code rest IH]; [reflexivity|].
  cbn [run_langs]. pose proof (lang_world self code w) as Hl.
  destruct (lang self code w) as [r w1]. cbn [snd] in Hl. subst w1.
  destruct (run_langs self rest w) as [rs w2]. exact IH.
Qed.

Lemma init_world_ok (v : pyval) (w : world) :
  world_ok w -> world_ok (snd (__init__ v w)).
Proof.
  intros [Ht Hh]. unfold __init__.
  destruct (py_int v) as [y|[]]; try exact (conj Ht Hh).
  unfold MIN_YEAR, MAX_YEAR.
  destruct (Z.leb_spec 4 y), (Z.leb_spec y 9999); try exact (conj Ht Hh).
  cbn [negb andb snd]. split; cbn [_TABLE heap].
  - left. destruct Ht as [->|[-> _]]; reflexivity.
  - apply Forall_app. split; [exact Hh|].
    constructor; [|constructor]. split; cbn; [lia|reflexivity].
Qed.

Lemma reachable_ok (w : world) : reachable w -> world_ok w.
Proof.
  induction 1 as [|v w _ IH|self code w _ IH].
  - split; [right; split; reflexivity | constructor].
  - now apply init_world_ok.
  - now rewrite lang_world.
Qed.

(** In a reachable world an instance finds the parsed table. *)
Lemma reachable_instance (w : world) (self : nat) (o : instance) :
  reachable w -> heap w !! self = Some o ->
  _TABLE w = Some _get_year /\ instance_ok o.
Proof.
  intros Hr Ho. destruct (reachable_ok w Hr) as [Ht Hh]. split.
  - destruct Ht as [Ht|[_ Hnil]]; [exact Ht|]. rewrite Hnil in Ho. discriminate.
  - rewrite Forall_forall in Hh. apply Hh. eapply list_elem_of_lookup_2; eauto.
Qed.

Lemma supported_iff (code : string) :
  code ∈ SUPPORTED_LANGUAGES
  <-> code = "chi" \/ code = "kor" \/ code = "jap" \/ code = "viet" \/ code = "eng".
Proof.
  unfold SUPPORTED_LANGUAGES.
  rewrite !elem_of_union, !elem_of_singleton. tauto.
Qed.

Lemma choices : String.concat ", " (Str.sorted (elements SUPPORTED_LANGUAGES))
                = "chi, eng, jap, kor, viet".
Proof. vm_compute. reflexivity. Qed.

Lemma lang_unsupported (self : nat) (code : string) (w : world) :
  code ∉ SUPPORTED_LANGUAGES ->
  lang self code w
  = (Raise (ValueError ("Language '" ++ code
                        ++ "' not supported. Choose from: chi, eng, jap, kor, viet")), w).
Proof.
  intros Hc. unfold lang. rewrite bool_decide_eq_true_2 by exact Hc.
  now rewrite choices.
Qed.

Lemma lang_supported (self : nat) (code : string) (w : world) (o : instance)
    (t : gmap Z (gmap string (list string))) :
  code ∈ SUPPORTED_LANGUAGES -> heap w !! self = Some o -> _TABLE w = Some t ->
  lang self code w = (subscript t (year_in_cycle o) code, w).
Proof.
  intros Hc Ho Ht. unfold lang.
  rewrite bool_decide_eq_false_2 by (intros Hn; exact (Hn Hc)).
  now rewrite Ho, Ht.
Qed.

Lemma subscript_in_range (position : Z) (code : string) :
  1 <= position <= 60 -> code ∈ SUPPORTED_LANGUAGES ->
  exists name hanja, subscript _get_year position code = Ok [name; hanja].
Proof.
  intros Hp Hc.
  assert (Hd : position ∈ dom _get_year).
  { rewrite get_year_dom, elem_of_list_to_set, elem_of_seqZ. lia. }
  apply elem_of_dom in Hd as [names Hn].
  destruct (get_year_names position names Hn) as [Hdom [hanja Hall]].
  assert (Hcn : code ∈ dom names) by now rewrite Hdom.
  apply elem_of_dom in Hcn as [item Hi].
  destruct (Hall code item Hi) as [Hlen Hsnd].
  unfold subscript. rewrite Hn, Hi.
  destruct item as [|name [|h [|]]]; cbn [length] in Hlen; try lia.
  cbn in Hsnd. injection Hsnd as ->. now exists name, hanja.
Qed.

Lemma subscript_out_of_range (position : Z) (code : string) :
  ~ 1 <= position <= 60 ->
  subscript _get_year position code = Raise (KeyError (KInt position)).
Proof.
  intros Hp. unfold subscript.
  assert (Hd : position ∉ dom _get_year).
  { rewrite get_year_dom, elem_of_list_to_set, elem_of_seqZ. lia. }
  apply not_elem_of_dom in Hd. now rewrite Hd.
Qed.

(** Construction followed by one [lang] call, in a world that is well
    formed. *)
Lemma resolve_lang_int (y : Z) (code : string) (w : world) :
  world_ok w -> 4 <= y <= 9999 -> code ∈ SUPPORTED_LANGUAGES ->
  resolve_lang (PyInt y) code w = subscript _get_year ((y - 4) mod 60 + 1) code.
Proof.
  intros [Ht _] Hy Hc. unfold resolve_lang. rewrite init_int_in by exact Hy.
  rewrite (lang_supported _ _ _ {| gregorian_year := y;
                                   year_in_cycle := (y - 4) mod 60 + 1 |} _get_year);
    [reflexivity | exact Hc | ..].
  - cbn [heap]. now apply list_lookup_middle.
  - cbn [_TABLE]. destruct Ht as [->|[-> _]]; reflexivity.
Qed.

End WorldFacts.

(** ** The cases of the repository's unit tests *)

Example test_init_valid_year :
  __init__ (PyInt 2024) world0
  = (Ok 0%nat, {| _TABLE := Some _get_year;
                  heap := [{| gregorian_year := 2024; year_in_cycle := 41 |}] |}).
Proof. now rewrite init_int_in by lia. Qed.

Example test_init_invalid_type :
  fst (__init__ (PyStr "not_a_year") world0)
  = Raise (TypeError "Year must be an integer, got str").
Proof. reflexivity. Qed.

Example test_various_years :
  map (fun y => cycle_position (__init__ (PyInt y) world0))
      [1984; 1985; 2020; 2025; 2043; 2044]
  = [Some 1; Some 2; Some 37; Some 42; Some 60; Some 1].
Proof. cbn [map]. rewrite !cycle_position_init by lia. reflexivity. Qed.

Example test_lang_korean :
  resolve_lang (PyInt 2024) "kor" world0 = Ok ["gapjin 갑진"; "甲辰"].
Proof. vm_compute. reflexivity. Qed.

Example test_lang_invalid_language :
  resolve_lang (PyInt 2024) "invalid" world0
  = Raise (ValueError
             "Language 'invalid' not supported. Choose from: chi, eng, jap, kor, viet").
Proof. vm_compute. reflexivity. Qed.

(** [test_table_loaded_once]: a second construction keeps the table of the
    first. *)
Example test_table_loaded_once (v1 v2 : pyval) (w : world) (t : gmap Z (gmap string (list string))) :
  _TABLE (snd (__init__ v1 w)) = Some t ->
  _TABLE (snd (__init__ v2 (snd (__init__ v1 w)))) = Some t.
Proof.
  intros Ht. generalize dependent (snd (__init__ v1 w)). intros w1 Ht.
  unfold __init__. destruct (py_int v2) as [y|[]]; try exact Ht.
  destruct (negb _); [exact Ht|]. cbn [snd _TABLE]. now rewrite Ht.
Qed.

(** ** The properties of the specification *)

(** C1: for every integer [y] with [4 <= y <= 9999] the constructor
    succeeds, the new instance stores [y], and its cycle position is
    [((y - 4) mod 60) + 1], a number of [1..60]; the years 4, 63 and 64
    have the positions 1, 60 and 1. *)
Theorem init_cycle_position :
  (forall (y : Z) (w : world), 4 <= y <= 9999 ->
     (exists self w',
         __init__ (PyInt y) w = (Ok self, w')
         /\ heap w' !! self = Some {| gregorian_year := y;
                                      year_in_cycle := (y - 4) mod 60 + 1 |})
     /\ cycle_position (__init__ (PyInt y) w) = Some ((y - 4) mod 60 + 1)
     /\ 1 <= (y - 4) mod 60 + 1 <= 60)
  /\ (forall w : world,
        cycle_position (__init__ (PyInt 4) w) = Some 1
        /\ cycle_position (__init__ (PyInt 63) w) = Some 60
        /\ cycle_position (__init__ (PyInt 64) w) = Some 1).
Proof.
  split.
  - intros y w Hy. split; [|split].
    + eexists _, _. split; [apply init_int_in; exact Hy|].
      cbn [heap]. now apply list_lookup_middle.
    + now apply cycle_position_init.
    + apply position_range.
  - intros w. repeat split; rewrite cycle_position_init by lia; reflexivity.
Qed.

Lemma init_cycle_position_witness :
  4 <= 2024 <= 9999
  /\ cycle_position (__init__ (PyInt 2024) world0) = Some ((2024 - 4) mod 60 + 1).
Proof.
  split; [lia|].
  apply (proj1 init_cycle_position 2024 world0). lia.
Defined.

(** C2: the table that [_get_year] builds has exactly 60 entries; its keys
    are the set [{1, ..., 60}], one per line of the literal and in order, so
    no line is skipped and no key repeats; every entry has exactly the five
    language codes, each with a list of two texts, a name and a logogram;
    and the logogram is the same for the five codes of an entry. *)
Theorem get_year_table_shape :
  size _get_year = 60%nat
  /\ dom _get_year = list_to_set (seqZ 1 60)
  /\ omap (fun line => fst <$> parse_row line) lines = seqZ 1 60
  /\ (forall (position : Z) (names : gmap string (list string)),
        _get_year !! position = Some names ->
        dom names = ({[ "chi"; "kor"; "jap"; "viet"; "eng" ]} : gset string)
        /\ exists hanja : string,
             forall (code : string) (item : list string),
               names !! code = Some item -> exists name, item = [name; hanja]).
Proof.
  split; [exact get_year_size|].
  split; [exact get_year_dom|].
  split; [exact lines_keys|].
  intros position names Hn.
  destruct (get_year_names position names Hn) as [Hdom [hanja Hall]].
  split; [exact Hdom|].
  exists hanja. intros code item Hi.
  destruct (Hall code item Hi) as [Hlen Hsnd].
  destruct item as [|name [|h [|]]]; cbn [length] in Hlen; try lia.
  cbn in Hsnd. injection Hsnd as ->. now exists name.
Qed.

Lemma get_year_table_shape_witness :
  exists names : gmap string (list string),
    _get_year !! 41 = Some names
    /\ dom names = ({[ "chi"; "kor"; "jap"; "viet"; "eng" ]} : gset string).
Proof.
  assert (Hd : 41 ∈ dom _get_year)
    by (rewrite get_year_dom, elem_of_list_to_set, elem_of_seqZ; lia).
  apply elem_of_dom in Hd as [names E].
  exists names. split; [exact E|].
  exact (proj1 (proj2 (proj2 (proj2 get_year_table_shape)) 41 names E)).
Defined.

(** C3: in every reachable world the instance for 2024 answers
    [("jiǎ-chén", "甲辰")] to [chi] and [("Yang Wood Dragon", "甲辰")] to
    [eng], and the instance for 2025 answers [("Yin Wood Snake", "乙巳")]
    to [eng]. *)
Theorem lang_2024_2025 (w : world) :
  reachable w ->
  resolve_lang (PyInt 2024) "chi" w = Ok ["jiǎ-chén"; "甲辰"]
  /\ resolve_lang (PyInt 2024) "eng" w = Ok ["Yang Wood Dragon"; "甲辰"]
  /\ resolve_lang (PyInt 2025) "eng" w = Ok ["Yin Wood Snake"; "乙巳"].
Proof.
  intros Hw. apply reachable_ok in Hw.
  repeat split;
    (rewrite resolve_lang_int;
     [ vm_compute; reflexivity | exact Hw | lia | apply supported_iff; tauto ]).
Qed.

Lemma lang_2024_2025_witness :
  reachable world0
  /\ resolve_lang (PyInt 2024) "chi" world0 = Ok ["jiǎ-chén"; "甲辰"].
Proof.
  split; [exact reach_start|].
  exact (proj1 (lang_2024_2025 world0 reach_start)).
Defined.

(** What [lang] does on an instance of a reachable world. *)
Lemma lang_supported_body (w : world) (self : nat) (o : instance) (code : string) :
  reachable w -> heap w !! self = Some o ->
  let supported := code = "chi" \/ code = "kor" \/ code = "jap"
                   \/ code = "viet" \/ code = "eng" in
  (supported ->
     exists name hanja,
       lang self code w = (Ok [name; hanja], w)
       /\ _get_year !! year_in_cycle o ≫= (fun names => names !! code)
          = Some [name; hanja])
  /\ (~ supported ->
        lang self code w
        = (Raise (ValueError ("Language '" ++ code
             ++ "' not supported. Choose from: chi, eng, jap, kor, viet")), w)).
Proof.
  intros Hw Ho supported. destruct (reachable_instance w self o Hw Ho) as [Ht [Hy Hp]].
  split.
  - intros Hc. apply supported_iff in Hc.
    assert (Hr : 1 <= year_in_cycle o <= 60) by (rewrite Hp; apply position_range).
    destruct (subscript_in_range _ code Hr Hc) as (name & hanja & Hs).
    exists name, hanja. split.
    + now rewrite (lang_supported self code w o _get_year Hc Ho Ht), Hs.
    + unfold subscript in Hs.
      destruct (_get_year !! year_in_cycle o) as [names|]; [|discriminate].
      cbn. destruct (names !! code); [|discriminate]. congruence.
  - intros Hc. apply lang_unsupported. now rewrite supported_iff.
Qed.

(** C4: for an instance of a reachable world, [lang code] succeeds exactly
    when [code] is one of [chi], [kor], [jap], [viet], [eng], compared
    character by character; it then returns the two-element entry of the
    table at the instance's cycle position and leaves the world as it is.
    Any other code raises the [ValueError] whose message lists the five
    codes in sorted order. *)
Theorem lang_supported_iff (w : world) (self : nat) (o : instance) (code : string) :
  reachable w -> heap w !! self = Some o ->
  let supported := code = "chi" \/ code = "kor" \/ code = "jap"
                   \/ code = "viet" \/ code = "eng" in
  (supported ->
     exists name hanja,
       lang self code w = (Ok [name; hanja], w)
       /\ _get_year !! year_in_cycle o ≫= (fun names => names !! code)
          = Some [name; hanja])
  /\ (~ supported ->
        lang self code w
        = (Raise (ValueError ("Language '" ++ code
             ++ "' not supported. Choose from: chi, eng, jap, kor, viet")), w)).
Proof. exact (lang_supported_body w self o code). Qed.

Lemma lang_supported_iff_witness :
  let w := snd (__init__ (PyInt 2024) world0) in
  reachable w
  /\ heap w !! 0%nat = Some {| gregorian_year := 2024; year_in_cycle := 41 |}
  /\ exists name hanja, lang 0 "chi" w = (Ok [name; hanja], w).
Proof.
  intros w.
  assert (Hw : reachable w) by exact (reach_init (PyInt 2024) world0 reach_start).
  assert (Ho : heap w !! 0%nat
               = Some {| gregorian_year := 2024; year_in_cycle := 41 |})
    by reflexivity.
  split; [exact Hw|]. split; [exact Ho|].
  destruct (proj1 (lang_supported_iff w 0 _ "chi" Hw Ho)) as (name & hanja & Hl & _).
  - left. reflexivity.
  - now exists name, hanja.
Defined.






(** C7: for every integer [y] with [4 <= y] and [y + 60 <= 9999], the
    instances for [y + 60] and for [y] have the same cycle position. *)
Theorem cycle_position_periodic (y : Z) (w1 w2 : world) :
  4 <= y -> y + 60 <= 9999 ->
  cycle_position (__init__ (PyInt (y + 60)) w1)
  = cycle_position (__init__ (PyInt y) w2)
  /\ is_Some (cycle_position (__init__ (PyInt y) w2)).
Proof.
  intros Hlo Hhi. rewrite !cycle_position_init by lia. split; [|eauto].
  f_equal. f_equal.
  replace (y + 60 - 4) with (y - 4 + 1 * 60) by lia.
  apply Z.mod_add. lia.
Qed.

Lemma cycle_position_periodic_witness :
  4 <= 1964 /\ 1964 + 60 <= 9999
  /\ cycle_position (__init__ (PyInt (1964 + 60)) world0)
     = cycle_position (__init__ (PyInt 1964) world0).
Proof.
  split; [lia|]. split; [lia|].
  apply (cycle_position_periodic 1964 world0 world0); lia.
Defined.

(** C8: for every integer [y] of [4 .. 9999], the constructor given the
    decimal text of [y] succeeds and does exactly what it does given [y]:
    the same reference, the same stored year and position, the same world,
    hence the same answers of [lang]; so for the text [2024]. *)
Theorem init_text_same_as_int :
  (forall (y : Z) (w : world), 4 <= y <= 9999 ->
     __init__ (PyStr (Str.str_of_int y)) w = __init__ (PyInt y) w
     /\ (exists self w', __init__ (PyStr (Str.str_of_int y)) w = (Ok self, w')
           /\ heap w' !! self = Some {| gregorian_year := y;
                                        year_in_cycle := (y - 4) mod 60 + 1 |})
     /\ (forall code, resolve_lang (PyStr (Str.str_of_int y)) code w
                      = resolve_lang (PyInt y) code w))
  /\ (forall w : world, __init__ (PyStr "2024") w = __init__ (PyInt 2024) w).
Proof.
  assert (Hco : forall y w, __init__ (PyStr (Str.str_of_int y)) w = __init__ (PyInt y) w).
  { intros y w. apply init_coerce. cbn [py_int].
    now rewrite int_of_str_str_of_int. }
  split.
  - intros y w Hy. split; [apply Hco|]. split.
    + rewrite Hco. eexists _, _. split; [apply init_int_in; exact Hy|].
      cbn [heap]. now apply list_lookup_middle.
    + intros code. unfold resolve_lang. now rewrite Hco.
  - intros w. exact (Hco 2024 w).
Qed.

Lemma init_text_same_as_int_witness :
  4 <= 1984 <= 9999
  /\ __init__ (PyStr (Str.str_of_int 1984)) world0 = __init__ (PyInt 1984) world0.
Proof.
  split; [lia|].
  apply (proj1 init_text_same_as_int 1984 world0). lia.
Defined.

(** C9: the table lookup at a position outside [1 .. 60] raises [KeyError]
    with that position, whatever the language code: a failure of its own
    kind, different from the [ValueError] and [TypeError] of the public
    path.  [lang] raises it on an instance whose position was forged, and
    no instance of a reachable world has such a position. *)
Theorem subscript_position_out_of_range :
  (forall (position : Z) (code : string),
     ~ 1 <= position <= 60 ->
     subscript _get_year position code = Raise (KeyError (KInt position))
     /\ (forall msg, KeyError (KInt position) <> ValueError msg
                     /\ KeyError (KInt position) <> TypeError msg))
  /\ (forall (w : world) (self : nat) (o : instance) (code : string),
        _TABLE w = Some _get_year -> heap w !! self = Some o ->
        ~ 1 <= year_in_cycle o <= 60 -> code ∈ SUPPORTED_LANGUAGES ->
        lang self code w = (Raise (KeyError (KInt (year_in_cycle o))), w))
  /\ (forall (w : world) (self : nat) (o : instance),
        reachable w -> heap w !! self = Some o -> 1 <= year_in_cycle o <= 60).
Proof.
  split; [|split].
  - intros position code Hp. split; [now apply subscript_out_of_range|].
    intros msg. split; discriminate.
  - intros w self o code Ht Ho Hp Hc.
    rewrite (lang_supported self code w o _get_year Hc Ho Ht).
    now rewrite subscript_out_of_range.
  - intros w self o Hw Ho.
    destruct (reachable_instance w self o Hw Ho) as [_ [_ Hp]].
    rewrite Hp. apply position_range.
Qed.

Lemma subscript_position_out_of_range_witness :
  ~ 1 <= 61 <= 60
  /\ subscript _get_year 61 "eng" = Raise (KeyError (KInt 61)).
Proof.
  assert (Hp : ~ 1 <= 61 <= 60) by lia.
  split; [exact Hp|].
  exact (proj1 (proj1 subscript_position_out_of_range 61 "eng" Hp)).
Defined.

(** C10: for an instance of a reachable world, any sequence of [lang]
    calls, each returning an entry or raising the [ValueError] of an
    unsupported code, leaves the world as it was: the instance keeps its
    year and position, the table is the same, and [lang] called again
    with a code answers as it did before the sequence. *)
Theorem lang_frame (w : world) (self : nat) (o : instance) (codes : list string) :
  reachable w -> heap w !! self = Some o ->
  let w' := snd (run_langs self codes w) in
  w' = w
  /\ heap w' !! self = Some o
  /\ _TABLE w' = _TABLE w
  /\ Forall (fun r => (exists name hanja, r = Ok [name; hanja])
                      \/ (exists msg, r = Raise (ValueError msg)))
            (fst (run_langs self codes w))
  /\ (forall code, lang self code w' = lang self code w).
Proof.
  intros Hw Ho w'. subst w'. rewrite run_langs_world.
  split; [reflexivity|]. split; [exact Ho|]. split; [reflexivity|].
  split; [|reflexivity].
  induction codes as [|code rest IH]; [constructor|].
  cbn [run_langs]. pose proof (lang_world self code w) as Hl.
  destruct (lang self code w) as [r w1] eqn:El. cbn [snd] in Hl. subst w1.
  destruct (run_langs self rest w) as [rs w2]. cbn [fst] in *.
  constructor; [|exact IH].
  destruct (decide (code = "chi" \/ code = "kor" \/ code = "jap"
                    \/ code = "viet" \/ code = "eng")) as [Hc|Hc].
  - left.
    destruct (proj1 (lang_supported_body w self o code Hw Ho) Hc)
      as (name & hanja & Hlang & _).
    exists name, hanja. congruence.
  - right. pose proof (proj2 (lang_supported_body w self o code Hw Ho) Hc) as Hr.
    rewrite El in Hr. injection Hr as ->. eexists. reflexivity.
Qed.

Lemma lang_frame_witness :
  let w := snd (__init__ (PyInt 2024) world0) in
  reachable w
  /\ heap w !! 0%nat = Some {| gregorian_year := 2024; year_in_cycle := 41 |}
  /\ snd (run_langs 0 ["chi"; "bogus"; "eng"; "chi"] w) = w.
Proof.
  intros w.
  assert (Hw : reachable w) by exact (reach_init (PyInt 2024) world0 reach_start).
  assert (Ho : heap w !! 0%nat
               = Some {| gregorian_year := 2024; year_in_cycle := 41 |})
    by reflexivity.
  split; [exact Hw|]. split; [exact Ho|].
  exact (proj1 (lang_frame w 0 _ ["chi"; "bogus"; "eng"; "chi"] Hw Ho)).
Defined.

(** ** Further facts: the constructor on every input *)

Section InitFacts.

(** [int] raises nothing but these. *)
Lemma py_int_cases (v : pyval) :
  (exists y, py_int v = Ok y)
  \/ (v = PyNone /\ exists msg, py_int v = Raise (TypeError msg))
  \/ (v = PyFloat S754_nan /\ exists msg, py_int v = Raise (ValueError msg))
  \/ ((exists s, v = PyStr s /\ Str.int_of_str s = None)
      /\ exists msg, py_int v = Raise (ValueError msg))
  \/ ((exists s, v = PyFloat (S754_infinity s))
      /\ py_int v = Raise (OverflowError "cannot convert float infinity to integer")).
Proof.
  destruct v as [z|b|f|s|]; cbn [py_int].
  - left. eauto.
  - left. eauto.
  - destruct f as [s|s| |s m e]; cbn [int_of_float]; eauto 10.
  - destruct (Str.int_of_str s) eqn:E; eauto 10.
  - eauto 10.
Qed.

Lemma init_overflow (s : bool) (w : world) :
  __init__ (PyFloat (S754_infinity s)) w
  = (Raise (OverflowError "cannot convert float infinity to integer"), w).
Proof. reflexivity. Qed.

(** The four ways a constructor call can end. *)
Lemma init_cases (v : pyval) (w : world) :
  (exists y, py_int v = Ok y /\ 4 <= y <= 9999
     /\ __init__ v w
        = (Ok (length (heap w)),
           {| _TABLE := match _TABLE w with
                        | None => Some _get_year
                        | Some t => Some t
                        end;
              heap := heap w ++ [{| gregorian_year := y;
                                    year_in_cycle := (y - 4) mod 60 + 1 |}] |}))
  \/ (exists y, py_int v = Ok y /\ (y < 4 \/ 9999 < y)
        /\ __init__ v w
           = (Raise (ValueError ("Year must be between 4 and 9999, got "
                                 ++ Str.str_of_int y)), w))
  \/ ((v = PyNone \/ v = PyFloat S754_nan
       \/ exists s, v = PyStr s /\ Str.int_of_str s = None)
      /\ __init__ v w
         = (Raise (TypeError ("Year must be an integer, got " ++ type_name v)), w))
  \/ ((exists s, v = PyFloat (S754_infinity s))
      /\ __init__ v w
         = (Raise (OverflowError "cannot convert float infinity to integer"), w)).
Proof.
  destruct (py_int_cases v) as [[y Hy]|[[-> Hm]|[[-> Hm]|[[Hs Hm]|[[s ->] _]]]]].
  - rewrite (init_coerce v y w Hy).
    destruct (Z_le_dec 4 y) as [Hlo|Hlo]; [destruct (Z_le_dec y 9999) as [Hhi|Hhi]|].
    + left. exists y. rewrite init_int_in by lia. auto.
    + right; left. exists y. rewrite init_int_out by lia. split; [auto|]. split; [lia|auto].
    + right; left. exists y. rewrite init_int_out by lia. split; [auto|]. split; [lia|auto].
  - right; right; left. split; [auto|]. apply init_int_fail. auto.
  - right; right; left. split; [auto|]. apply init_int_fail. auto.
  - right; right; left. split; [auto|]. apply init_int_fail. auto.
  - right; right; right. split; [eauto|]. apply init_overflow.
Qed.

Lemma init_table_kept (v : pyval) (w : world) (t : gmap Z (gmap string (list string))) :
  _TABLE w = Some t -> _TABLE (snd (__init__ v w)) = Some t.
Proof.
  intros Ht.
  destruct (init_cases v w) as [(y & _ & _ & ->)|[(y & _ & _ & ->)|[[_ ->]|[_ ->]]]];
    cbn [snd _TABLE]; try exact Ht.
  now rewrite Ht.
Qed.

Lemma init_heap_kept (v : pyval) (w : world) (r : nat) (o : instance) :
  heap w !! r = Some o -> heap (snd (__init__ v w)) !! r = Some o.
Proof.
  intros Ho.
  destruct (init_cases v w) as [(y & _ & _ & ->)|[(y & _ & _ & ->)|[[_ ->]|[_ ->]]]];
    cbn [snd heap]; try exact Ho.
  now apply lookup_app_l_Some.
Qed.

Lemma step_table_kept (a : op) (w : world) (t : gmap Z (gmap string (list string))) :
  _TABLE w = Some t -> _TABLE (step w a) = Some t.
Proof.
  destruct a as [v|self code]; cbn [step].
  - apply init_table_kept.
  - now rewrite lang_world.
Qed.

Lemma step_heap_kept (a : op) (w : world) (r : nat) (o : instance) :
  heap w !! r = Some o -> heap (step w a) !! r = Some o.
Proof.
  destruct a as [v|self code]; cbn [step].
  - apply init_heap_kept.
  - now rewrite lang_world.
Qed.

Lemma run_table_kept (ops : list op) : forall (w : world) t,
  _TABLE w = Some t -> _TABLE (run ops w) = Some t.
Proof.
  induction ops as [|a ops IH]; intros w t Ht; [exact Ht|].
  cbn [run fold_left]. apply IH. now apply step_table_kept.
Qed.

Lemma run_heap_kept (ops : list op) : forall (w : world) r o,
  heap w !! r = Some o -> heap (run ops w) !! r = Some o.
Proof.
  induction ops as [|a ops IH]; intros w r o Ho; [exact Ho|].
  cbn [run fold_left]. apply IH. now apply step_heap_kept.
Qed.

Lemma step_reachable (a : op) (w : world) : reachable w -> reachable (step w a).
Proof. destruct a; cbn [step]; now constructor. Qed.

Lemma run_reachable (ops : list op) : forall w : world,
  reachable w -> reachable (run ops w).
Proof.
  induction ops as [|a ops IH]; intros w Hw; [exact Hw|].
  cbn [run fold_left]. apply IH. now apply step_reachable.
Qed.

(** The table is there exactly when an instance is. *)
Lemma reachable_table_heap (w : world) :
  reachable w ->
  (_TABLE w = None /\ heap w = [])
  \/ (_TABLE w = Some _get_year /\ heap w <> []).
Proof.
  induction 1 as [|v w _ IH|self code w _ IH].
  - left. split; reflexivity.
  - destruct (init_cases v w) as [(y & _ & _ & ->)|[(y & _ & _ & ->)|[[_ ->]|[_ ->]]]];
      cbn [snd]; try exact IH.
    right. cbn [_TABLE heap]. split.
    + destruct IH as [[-> _]|[-> _]]; reflexivity.
    + intros Hnil. apply app_eq_nil in Hnil as [_ Hnil]. discriminate Hnil.
  - now rewrite lang_world.
Qed.

(** Construction followed by [lang] with a code that is not supported. *)
Lemma resolve_lang_unsupported (y : Z) (code : string) (w : world) :
  4 <= y <= 9999 -> code ∉ SUPPORTED_LANGUAGES ->
  resolve_lang (PyInt y) code w
  = Raise (ValueError ("Language '" ++ code
                       ++ "' not supported. Choose from: chi, eng, jap, kor, viet")).
Proof.
  intros Hy Hc. unfold resolve_lang. rewrite init_int_in by exact Hy.
  now rewrite lang_unsupported.
Qed.

(** [LunarYear(v).lang(code)] gives what it gives in the first world. *)
Lemma resolve_lang_world0 (v : pyval) (code : string) (w : world) :
  world_ok w -> resolve_lang v code w = resolve_lang v code world0.
Proof.
  intros Hw.
  assert (H0 : world_ok world0) by (split; [right; split; reflexivity | constructor]).
  destruct (init_cases v w) as [(y & Hy & Hr & _)|[(y & Hy & Hr & _)|[[Hv _]|[[s ->] _]]]].
  - unfold resolve_lang. rewrite !(init_coerce v y _ Hy).
    fold (resolve_lang (PyInt y) code w). fold (resolve_lang (PyInt y) code world0).
    destruct (decide (code ∈ SUPPORTED_LANGUAGES)) as [Hc|Hc].
    + now rewrite !resolve_lang_int.
    + now rewrite !resolve_lang_unsupported.
  - unfold resolve_lang. rewrite !(init_coerce v y _ Hy), !init_int_out by exact Hr.
    reflexivity.
  - unfold resolve_lang. rewrite !init_int_fail; [reflexivity|..].
    all: destruct Hv as [->|[->|(s & -> & Hs)]]; cbn [py_int int_of_float];
      rewrite ?Hs; eauto.
  - reflexivity.
Qed.

Lemma position_eq_iff (y1 y2 : Z) :
  (y1 - 4) mod 60 + 1 = (y2 - 4) mod 60 + 1 <-> (y1 - y2) mod 60 = 0.
Proof. split; intros H; Z.div_mod_to_equations; lia. Qed.

End InitFacts.

(** ** Further properties of the constructor and of [lang] *)

(** X1: the constructor succeeds exactly when [int] turns its argument
    into an integer of [4 .. 9999], whatever the type of the argument.  The
    instance then stores that integer and its position under a new
    reference, after the instances that were there. *)
Theorem init_success_iff (v : pyval) (w : world) :
  ((exists self w', __init__ v w = (Ok self, w'))
   <-> exists y, py_int v = Ok y /\ 4 <= y <= 9999)
  /\ (forall self w', __init__ v w = (Ok self, w') ->
        exists y, py_int v = Ok y
          /\ self = length (heap w)
          /\ heap w !! self = None
          /\ heap w' = (heap w ++ [{| gregorian_year := y;
                                      year_in_cycle := (y - 4) mod 60 + 1 |}])%list).
Proof.
  destruct (init_cases v w) as [(y & Hy & Hr & Hi)|[(y & Hy & Hr & Hi)|[[Hv Hi]|[Hv Hi]]]];
    rewrite Hi.
  - split.
    + split; [eauto | intros _; eauto].
    + intros self w' [= <- <-]. exists y. split; [exact Hy|]. split; [reflexivity|].
      split; [now apply lookup_ge_None_2 | reflexivity].
  - split; [|intros self w' [=]].
    split; [intros (self & w' & [=])|].
    intros (y' & Hy' & Hr'). rewrite Hy in Hy'. injection Hy' as ->. lia.
  - split; [|intros self w' [=]].
    split; [intros (self & w' & [=])|].
    intros (y & Hy & _). exfalso.
    destruct Hv as [->|[->|(s & -> & Hs)]]; cbn [py_int int_of_float] in Hy;
      rewrite ?Hs in Hy; discriminate Hy.
  - split; [|intros self w' [=]].
    split; [intros (self & w' & [=])|].
    intros (y & Hy & _). destruct Hv as [s ->]. discriminate Hy.
Qed.

Lemma init_success_iff_witness :
  __init__ (PyStr " +2_024 ") world0
  = (Ok 0%nat, {| _TABLE := Some _get_year;
                  heap := [{| gregorian_year := 2024; year_in_cycle := 41 |}] |})
  /\ exists y, py_int (PyStr " +2_024 ") = Ok y /\ 0%nat = length (heap world0).
Proof.
  assert (Hi : __init__ (PyStr " +2_024 ") world0
               = (Ok 0%nat, {| _TABLE := Some _get_year;
                               heap := [{| gregorian_year := 2024;
                                           year_in_cycle := 41 |}] |}))
    by (rewrite (init_coerce _ 2024) by reflexivity;
        now rewrite init_int_in by lia).
  split; [exact Hi|].
  destruct (proj2 (init_success_iff (PyStr " +2_024 ") world0) _ _ Hi)
    as (y & Hy & Hself & _).
  exists y. split; [exact Hy | exact Hself].
Defined.



(** X3: in a reachable world the table is absent exactly as long as no
    construction has succeeded; from the first instance on it is the table
    [_get_year] builds. *)
Theorem table_built_with_first_instance (w : world) :
  reachable w ->
  (_TABLE w = None /\ heap w = [])
  \/ (_TABLE w = Some _get_year /\ heap w <> []).
Proof. apply reachable_table_heap. Qed.

Lemma table_built_with_first_instance_witness :
  reachable (snd (__init__ (PyInt 3) world0))
  /\ _TABLE (snd (__init__ (PyInt 3) world0)) = None.
Proof.
  assert (Hw : reachable (snd (__init__ (PyInt 3) world0)))
    by exact (reach_init (PyInt 3) world0 reach_start).
  split; [exact Hw|].
  destruct (table_built_with_first_instance _ Hw) as [[Ht _]|[_ Hh]].
  - exact Ht.
  - exfalso. apply Hh. reflexivity.
Defined.

(** X4: a table that is set is never replaced: after any sequence of
    constructor and [lang] calls, failed or not, [_TABLE] is the very table
    it was, whichever table that is. *)
Theorem table_never_replaced (ops : list op) (w : world)
    (t : gmap Z (gmap string (list string))) :
  _TABLE w = Some t -> _TABLE (run ops w) = Some t.
Proof. apply run_table_kept. Qed.

Lemma table_never_replaced_witness :
  let w := snd (__init__ (PyInt 2024) world0) in
  _TABLE w = Some _get_year
  /\ _TABLE (run [OpInit (PyInt 2025); OpLang 0 "eng"; OpInit PyNone] w)
     = Some _get_year.
Proof.
  intros w.
  assert (Ht : _TABLE w = Some _get_year)
    by (subst w; now rewrite init_int_in by lia).
  split; [exact Ht|].
  exact (table_never_replaced _ w _get_year Ht).
Defined.

(** X5: an instance is not touched by what happens after it was built:
    after any sequence of constructor and [lang] calls it is still there,
    with the same year and position, and its [lang] answers as before. *)
Theorem instance_isolated (w : world) (self : nat) (o : instance)
    (ops : list op) (code : string) :
  reachable w -> heap w !! self = Some o ->
  heap (run ops w) !! self = Some o
  /\ lang self code (run ops w) = (fst (lang self code w), run ops w).
Proof.
  intros Hw Ho.
  pose proof (run_heap_kept ops w self o Ho) as Ho'.
  split; [exact Ho'|].
  destruct (reachable_instance w self o Hw Ho) as [Ht _].
  pose proof (run_table_kept ops w _ Ht) as Ht'.
  destruct (decide (code ∈ SUPPORTED_LANGUAGES)) as [Hc|Hc].
  - rewrite (lang_supported self code _ o _get_year Hc Ho' Ht').
    now rewrite (lang_supported self code w o _get_year Hc Ho Ht).
  - now rewrite !lang_unsupported.
Qed.

Lemma instance_isolated_witness :
  let w := snd (__init__ (PyInt 2024) world0) in
  reachable w
  /\ heap w !! 0%nat = Some {| gregorian_year := 2024; year_in_cycle := 41 |}
  /\ heap (run [OpInit (PyInt 2025); OpInit (PyStr "x"); OpLang 1 "kor"] w) !! 0%nat
     = Some {| gregorian_year := 2024; year_in_cycle := 41 |}.
Proof.
  intros w.
  assert (Hw : reachable w) by exact (reach_init (PyInt 2024) world0 reach_start).
  assert (Ho : heap w !! 0%nat
               = Some {| gregorian_year := 2024; year_in_cycle := 41 |})
    by reflexivity.
  split; [exact Hw|]. split; [exact Ho|].
  exact (proj1 (instance_isolated w 0 _ _ "chi" Hw Ho)).
Defined.

(** X6: what [LunarYear(v).lang(code)] returns or raises does not depend
    on the calls made before: it is the same in every reachable world. *)
Theorem resolve_lang_history_free (v : pyval) (code : string) (w1 w2 : world) :
  reachable w1 -> reachable w2 ->
  resolve_lang v code w1 = resolve_lang v code w2.
Proof.
  intros H1 H2.
  rewrite (resolve_lang_world0 v code w1), (resolve_lang_world0 v code w2);
    [reflexivity | now apply reachable_ok ..].
Qed.

Lemma resolve_lang_history_free_witness :
  reachable world0 /\ reachable (snd (__init__ (PyInt 1999) world0))
  /\ resolve_lang (PyStr "2024") "jap" world0
     = resolve_lang (PyStr "2024") "jap" (snd (__init__ (PyInt 1999) world0)).
Proof.
  assert (H2 : reachable (snd (__init__ (PyInt 1999) world0)))
    by exact (reach_init (PyInt 1999) world0 reach_start).
  split; [exact reach_start|]. split; [exact H2|].
  exact (resolve_lang_history_free _ _ _ _ reach_start H2).
Defined.

(** X7: two years of the valid range have the same cycle position exactly
    when they differ by a multiple of 60, and then [lang] gives the same
    for both, for every code. *)
Theorem cycle_position_eq_iff (y1 y2 : Z) (w1 w2 : world) :
  4 <= y1 <= 9999 -> 4 <= y2 <= 9999 ->
  (cycle_position (__init__ (PyInt y1) w1) = cycle_position (__init__ (PyInt y2) w2)
   <-> (y1 - y2) mod 60 = 0)
  /\ ((y1 - y2) mod 60 = 0 ->
      forall (code : string) (w : world), reachable w ->
        resolve_lang (PyInt y1) code w = resolve_lang (PyInt y2) code w).
Proof.
  intros H1 H2. rewrite !cycle_position_init by assumption. split.
  - rewrite <- position_eq_iff. split; [intros [= H]; exact H | intros ->; reflexivity].
  - intros Hm code w Hw. apply position_eq_iff in Hm.
    destruct (decide (code ∈ SUPPORTED_LANGUAGES)) as [Hc|Hc].
    + rewrite !resolve_lang_int by (try apply reachable_ok; assumption).
      now rewrite Hm.
    + now rewrite !resolve_lang_unsupported.
Qed.

Lemma cycle_position_eq_iff_witness :
  4 <= 1904 <= 9999 /\ 4 <= 2024 <= 9999
  /\ cycle_position (__init__ (PyInt 1904) world0)
     = cycle_position (__init__ (PyInt 2024) world0).
Proof.
  split; [lia|]. split; [lia|].
  apply (proj1 (cycle_position_eq_iff 1904 2024 world0 world0 ltac:(lia) ltac:(lia))).
  reflexivity.
Defined.

(** X8: the year after a year of position [p] has position [p + 1], and
    position 1 after position 60. *)
Theorem cycle_position_next (y p : Z) (w1 w2 : world) :
  4 <= y -> y + 1 <= 9999 ->
  cycle_position (__init__ (PyInt y) w1) = Some p ->
  cycle_position (__init__ (PyInt (y + 1)) w2) = Some (if p =? 60 then 1 else p + 1).
Proof.
  intros Hlo Hhi. rewrite !cycle_position_init by lia. intros [= <-]. f_equal.
  destruct (Z.eqb_spec ((y - 4) mod 60 + 1) 60); Z.div_mod_to_equations; lia.
Qed.

Lemma cycle_position_next_witness :
  4 <= 2043 /\ 2043 + 1 <= 9999
  /\ cycle_position (__init__ (PyInt 2043) world0) = Some 60
  /\ cycle_position (__init__ (PyInt (2043 + 1)) world0) = Some 1.
Proof.
  assert (Hp : cycle_position (__init__ (PyInt 2043) world0) = Some 60)
    by now rewrite cycle_position_init by lia.
  split; [lia|]. split; [lia|]. split; [exact Hp|].
  exact (cycle_position_next 2043 60 world0 world0 ltac:(lia) ltac:(lia) Hp).
Defined.

(** X9: no row of the table is out of reach: every item stored at a
    position and a code is what [lang] returns for some year of the valid
    range, in every reachable world. *)
Theorem every_row_reached (position : Z) (names : gmap string (list string))
    (code : string) (item : list string) :
  _get_year !! position = Some names -> names !! code = Some item ->
  exists y, 4 <= y <= 9999
    /\ forall w, reachable w -> resolve_lang (PyInt y) code w = Ok item.
Proof.
  intros Hn Hi.
  assert (Hp : 1 <= position <= 60).
  { assert (Hd : position ∈ dom _get_year) by (apply elem_of_dom; eauto).
    rewrite get_year_dom, elem_of_list_to_set, elem_of_seqZ in Hd. lia. }
  assert (Hc : code ∈ SUPPORTED_LANGUAGES).
  { destruct (get_year_names position names Hn) as [<- _]. apply elem_of_dom. eauto. }
  exists (position + 3). split; [lia|]. intros w Hw.
  rewrite resolve_lang_int by (try apply reachable_ok; try assumption; lia).
  replace ((position + 3 - 4) mod 60 + 1) with position
    by (Z.div_mod_to_equations; lia).
  unfold subscript. now rewrite Hn, Hi.
Qed.

Lemma every_row_reached_witness :
  exists names item,
    _get_year !! 60 = Some names /\ names !! "viet" = Some item
    /\ exists y, 4 <= y <= 9999 /\ resolve_lang (PyInt y) "viet" world0 = Ok item.
Proof.
  assert (Hd : 60 ∈ dom _get_year)
    by (rewrite get_year_dom, elem_of_list_to_set, elem_of_seqZ; lia).
  apply elem_of_dom in Hd as [names Hn].
  assert (Hc : "viet" ∈ dom names).
  { destruct (get_year_names 60 names Hn) as [-> _]. apply supported_iff. tauto. }
  apply elem_of_dom in Hc as [item Hi].
  exists names, item. split; [exact Hn|]. split; [exact Hi|].
  destruct (every_row_reached 60 names "viet" item Hn Hi) as (y & Hy & Hl).
  exists y. split; [exact Hy|]. apply Hl. exact reach_start.
Defined.

(** ** Further facts: the loop of [_get_year] on any text *)

Section BuildFacts.

Lemma get_year_build : _get_year = build table_literal.
Proof. reflexivity. Qed.

Lemma split_nonempty (sep : ascii) (s : string) : Str.split sep s <> [].
Proof.
  destruct s as [|c r]; cbn [Str.split]; [discriminate|].
  destruct (Ascii.eqb c sep); [discriminate|].
  destruct (Str.split sep r); discriminate.
Qed.

(** What a row that parses puts into the table. *)
Lemma parse_row_Some (line : string) (k : Z) (names : gmap string (list string)) :
  parse_row line = Some (k, names) ->
  exists p0 hanja p2 p3 p4 p5 p6 rest,
    Str.split TAB (Str.strip line) = p0 :: hanja :: p2 :: p3 :: p4 :: p5 :: p6 :: rest
    /\ Str.int_of_str p0 = Some k
    /\ names = <["eng" := [p6; hanja]]> (<["viet" := [p5; hanja]]>
               (<["jap" := [p4; hanja]]> (<["kor" := [p3; hanja]]>
               (<["chi" := [p2; hanja]]> ∅)))).
Proof.
  unfold parse_row.
  destruct (Str.split TAB (Str.strip line))
    as [|p0 [|hanja [|p2 [|p3 [|p4 [|p5 [|p6 rest]]]]]]];
    cbn; try discriminate;
    destruct (Str.int_of_str p0) as [k'|] eqn:E; cbn; try discriminate.
  intros [= <- <-]. now exists p0, hanja, p2, p3, p4, p5, p6, rest.
Qed.

Lemma parse_row_shape (line : string) (k : Z) (names : gmap string (list string)) :
  parse_row line = Some (k, names) ->
  dom names = SUPPORTED_LANGUAGES
  /\ exists hanja : string,
       forall (code : string) (item : list string),
         names !! code = Some item -> exists name, item = [name; hanja].
Proof.
  intros H. apply parse_row_Some in H
    as (p0 & hanja & p2 & p3 & p4 & p5 & p6 & rest & _ & _ & ->).
  split.
  - rewrite !dom_insert_L, dom_empty_L. unfold SUPPORTED_LANGUAGES.
    apply set_eq. intros x. rewrite !elem_of_union, !elem_of_singleton.
    rewrite elem_of_empty. tauto.
  - exists hanja. intros code item.
    rewrite !lookup_insert_Some, lookup_empty.
    intros [[_ <-]|[_ [[_ <-]|[_ [[_ <-]|[_ [[_ <-]|[_ [[_ <-]|[_ [=]]]]]]]]]]]; eauto.
Qed.

Lemma add_row_lookup (t : gmap Z (gmap string (list string))) (line : string) (k : Z) :
  add_row t line !! k
  = match parse_row line with
    | Some (k', names) => if decide (k' = k) then Some names else t !! k
    | None => t !! k
    end.
Proof.
  unfold add_row. destruct (parse_row line) as [[k' names]|]; [|reflexivity].
  now rewrite lookup_insert.
Qed.

Lemma fold_add_row_dom (ls : list string) :
  forall (acc : gmap Z (gmap string (list string))) (k : Z),
    k ∈ dom (fold_left add_row ls acc)
    <-> k ∈ dom acc
        \/ exists line names, line ∈ ls /\ parse_row line = Some (k, names).
Proof.
  induction ls as [|l ls IH]; intros acc k; cbn [fold_left].
  - split; [auto|]. intros [H|(line & names & Hin & _)]; [exact H|].
    now apply elem_of_nil in Hin.
  - rewrite IH, !elem_of_dom, add_row_lookup. split.
    + intros [H|(line & names & Hin & Hp)].
      * destruct (parse_row l) as [[k' names]|] eqn:E; [|auto].
        destruct (decide (k' = k)) as [->|]; [|auto].
        right. exists l, names. split; [left|exact E].
      * right. exists line, names. split; [now right|exact Hp].
    + intros [H|(line & names & Hin & Hp)].
      * left. destruct (parse_row l) as [[k' names]|]; [|exact H].
        destruct (decide (k' = k)); eauto.
      * apply elem_of_cons in Hin as [->|Hin].
        -- left. rewrite Hp. rewrite decide_True by reflexivity. eauto.
        -- right. eauto.
Qed.

Lemma fold_add_row_other (ls : list string) :
  forall (acc : gmap Z (gmap string (list string))) (k : Z),
    (forall line names, line ∈ ls -> parse_row line <> Some (k, names)) ->
    fold_left add_row ls acc !! k = acc !! k.
Proof.
  induction ls as [|l ls IH]; intros acc k Hno; cbn [fold_left]; [reflexivity|].
  rewrite IH by (intros line names Hin; apply Hno; now right).
  rewrite add_row_lookup.
  destruct (parse_row l) as [[k' names]|] eqn:E; [|reflexivity].
  destruct (decide (k' = k)) as [->|]; [|reflexivity].
  exfalso. apply (Hno l names); [left | exact E].
Qed.

Lemma fold_add_row_shape (ls : list string) :
  forall (acc : gmap Z (gmap string (list string))) (P : gmap string (list string) -> Prop),
    (forall line k names, parse_row line = Some (k, names) -> P names) ->
    map_Forall (fun _ names => P names) acc ->
    map_Forall (fun _ names => P names) (fold_left add_row ls acc).
Proof.
  induction ls as [|l ls IH]; intros acc P HP Hacc; cbn [fold_left]; [exact Hacc|].
  apply IH; [exact HP|]. unfold add_row.
  destruct (parse_row l) as [[k names]|] eqn:E; [|exact Hacc].
  apply map_Forall_insert_2; [eapply HP; exact E | exact Hacc].
Qed.

End BuildFacts.

(** ** Further properties of the table and its construction *)

(** X10: the loop skips a line exactly when, after [strip] and the split
    on tabs, it has fewer than seven fields or its first field is no
    integer literal; every other line is stored. *)
Theorem parse_row_skipped_iff (line : string) :
  let parts := Str.split TAB (Str.strip line) in
  parse_row line = None
  <-> (length parts < 7)%nat
      \/ exists p0, parts !! 0%nat = Some p0 /\ Str.int_of_str p0 = None.
Proof.
  intros parts. subst parts. unfold parse_row.
  pose proof (split_nonempty TAB (Str.strip line)) as Hne.
  destruct (Str.split TAB (Str.strip line))
    as [|p0 [|hanja [|p2 [|p3 [|p4 [|p5 [|p6 rest]]]]]]]; [congruence|..];
    cbn; destruct (Str.int_of_str p0) as [k|] eqn:E; cbn;
    (split; [intros H; try discriminate H; try (left; lia); right; eauto
            | intros [H|(q & [= <-] & Hq)]; try reflexivity; try lia; congruence]).
Qed.

Lemma parse_row_skipped_iff_witness :
  let line := String.concat (String TAB "") ["61"; "H"; "a"; "b"] in
  (length (Str.split TAB (Str.strip line)) < 7)%nat /\ parse_row line = None.
Proof.
  intros line.
  assert (Hl : (length (Str.split TAB (Str.strip line)) < 7)%nat)
    by (vm_compute; lia).
  split; [exact Hl|].
  apply (proj2 (parse_row_skipped_iff line)). left. exact Hl.
Defined.

(** X11: whatever text stands in the place of the literal ([_get_year] is
    [build table_literal]), every entry of the table built from it has
    exactly the five language codes, each with a list of two texts, and the
    second text is the same for the five. *)
Theorem build_entry_shape (text : string) (position : Z)
    (names : gmap string (list string)) :
  build text !! position = Some names ->
  dom names = ({[ "chi"; "kor"; "jap"; "viet"; "eng" ]} : gset string)
  /\ exists hanja : string,
       forall (code : string) (item : list string),
         names !! code = Some item -> exists name, item = [name; hanja].
Proof.
  intros H.
  apply (fold_add_row_shape (Str.split NL (Str.strip text)) ∅
           (fun names =>
              dom names = SUPPORTED_LANGUAGES
              /\ exists hanja : string,
                   forall (code : string) (item : list string),
                     names !! code = Some item -> exists name, item = [name; hanja])
           parse_row_shape (map_Forall_empty _) position names H).
Qed.

Lemma build_entry_shape_witness :
  let text := String.concat (String TAB "") ["7"; "H"; "a"; "b"; "c"; "d"; "e"] in
  exists names, build text !! 7 = Some names
    /\ dom names = ({[ "chi"; "kor"; "jap"; "viet"; "eng" ]} : gset string).
Proof.
  intros text.
  assert (Hd : 7 ∈ dom (build text)) by (vm_compute; reflexivity).
  apply elem_of_dom in Hd as [names E].
  exists names. split; [exact E|].
  exact (proj1 (build_entry_shape text 7 names E)).
Defined.

(** X12: whatever text stands in the place of the literal, the keys of the
    table built from it are exactly the integers that open a line that
    parses. *)
Theorem build_keys (text : string) (k : Z) :
  k ∈ dom (build text)
  <-> exists line names,
        line ∈ Str.split NL (Str.strip text) /\ parse_row line = Some (k, names).
Proof.
  unfold build. rewrite fold_add_row_dom, dom_empty_L, elem_of_empty. tauto.
Qed.

Lemma build_keys_witness :
  let text := String.concat (String TAB "") ["7"; "H"; "a"; "b"; "c"; "d"; "e"] in
  text ∈ Str.split NL (Str.strip text)
  /\ fst <$> parse_row text = Some 7
  /\ 7 ∈ dom (build text).
Proof.
  intros text.
  assert (Hin : text ∈ Str.split NL (Str.strip text)) by (vm_compute; left).
  assert (Hk : fst <$> parse_row text = Some 7) by (vm_compute; reflexivity).
  split; [exact Hin|]. split; [exact Hk|].
  destruct (parse_row text) as [[k names]|] eqn:E; [|discriminate Hk].
  cbn in Hk. injection Hk as ->.
  apply (proj2 (build_keys text 7)). exists text, names. split; [exact Hin | exact E].
Defined.

(** X13: a line that parses with position [k] decides the entry of [k] when
    no later line parses with [k]: it replaces what an earlier line stored,
    and lines that do not parse, or parse with another position, leave it
    alone. *)
Theorem build_last_row_wins (text : string) (before after : list string)
    (line : string) (k : Z) (names : gmap string (list string)) :
  Str.split NL (Str.strip text) = (before ++ line :: after)%list ->
  parse_row line = Some (k, names) ->
  (forall l names', l ∈ after -> parse_row l <> Some (k, names')) ->
  build text !! k = Some names.
Proof.
  intros Hs Hp Hafter. unfold build. rewrite Hs, fold_left_app. cbn [fold_left].
  rewrite fold_add_row_other by exact Hafter.
  rewrite add_row_lookup, Hp. now rewrite decide_True.
Qed.

Lemma build_last_row_wins_witness :
  let tab := String TAB "" in
  let row1 := String.concat tab ["7"; "H"; "a"; "b"; "c"; "d"; "e"] in
  let row2 := String.concat tab ["x"; "H"] in
  let row3 := String.concat tab ["7"; "J"; "p"; "q"; "r"; "s"; "t"] in
  let row4 := String.concat tab ["8"; "K"; "p"; "q"; "r"; "s"; "t"] in
  let text := String.concat (String NL "") [row1; row2; row3; row4] in
  let names : gmap string (list string) :=
    <["eng" := ["t"; "J"]]> (<["viet" := ["s"; "J"]]> (<["jap" := ["r"; "J"]]>
    (<["kor" := ["q"; "J"]]> (<["chi" := ["p"; "J"]]> ∅)))) in
  parse_row row3 = Some (7, names) /\ build text !! 7 = Some names.
Proof.
  intros tab row1 row2 row3 row4 text names.
  assert (E3 : parse_row row3 = Some (7, names)) by (vm_compute; reflexivity).
  assert (E4 : fst <$> parse_row row4 = Some 8) by (vm_compute; reflexivity).
  split; [exact E3|].
  apply (build_last_row_wins text [row1; row2] [row4] row3 7 names).
  - vm_compute. reflexivity.
  - exact E3.
  - intros l names' Hin H. apply list_elem_of_singleton in Hin. subst l.
    rewrite H in E4. discriminate E4.
Defined.

(** ** Further facts: the rows of the literal and [main] *)

Section MainFacts.

(** Row by row: the year of the last column is valid and has the row's
    position, and the row is the table's entry at that position. *)
Lemma lines_sample_years (line : string) :
  line ∈ lines ->
  exists k names y,
    parse_row line = Some (k, names)
    /\ Str.split TAB (Str.strip line) !! 9%nat ≫= Str.int_of_str = Some y
    /\ 4 <= y <= 9999
    /\ (y - 4) mod 60 + 1 = k
    /\ _get_year !! k = Some names.
Proof.
  assert (H : forallb
                (fun line =>
                   match parse_row line,
                         Str.split TAB (Str.strip line) !! 9%nat ≫= Str.int_of_str with
                   | Some (k, names), Some y =>
                       (4 <=? y) && (y <=? 9999) && ((y - 4) mod 60 + 1 =? k)
                       && bool_decide (_get_year !! k = Some names)
                   | _, _ => false
                   end) lines = true)
    by (vm_compute; reflexivity).
  rewrite forallb_forall in H. intros Hin. apply list_elem_of_In in Hin.
  specialize (H line Hin).
  destruct (parse_row line) as [[k names]|]; [|discriminate H].
  destruct (Str.split TAB (Str.strip line) !! 9%nat ≫= Str.int_of_str) as [y|];
    [|discriminate H].
  apply andb_true_iff in H as [H Ht]. apply andb_true_iff in H as [H Hk].
  apply andb_true_iff in H as [Hlo Hhi].
  apply bool_decide_eq_true in Ht.
  exists k, names, y. repeat split; try reflexivity; try lia; exact Ht.
Qed.





End MainFacts.

(** ** Further properties of the rows and of [main] *)

(** X14: in every row of the literal the Gregorian year of the last column
    is a year of the valid range whose cycle position is the position that
    opens the row, and the table holds the row at that position: the
    constant 4 of the formula agrees with the years the table names. *)
Theorem sample_year_has_row_position (line : string) :
  line ∈ lines ->
  exists k names y,
    parse_row line = Some (k, names)
    /\ Str.split TAB (Str.strip line) !! 9%nat ≫= Str.int_of_str = Some y
    /\ 4 <= y <= 9999
    /\ cycle_position (__init__ (PyInt y) world0) = Some k
    /\ _get_year !! k = Some names.
Proof.
  intros Hin.
  destruct (lines_sample_years line Hin) as (k & names & y & Hp & H9 & Hy & Hk & Ht).
  exists k, names, y. rewrite cycle_position_init by exact Hy.
  rewrite Hk. auto.
Qed.

Lemma sample_year_has_row_position_witness :
  exists line k names y,
    lines !! 0%nat = Some line
    /\ parse_row line = Some (k, names)
    /\ cycle_position (__init__ (PyInt y) world0) = Some k.
Proof.
  destruct (lines !! 0%nat) as [line|] eqn:E; [|discriminate E].
  destruct (sample_year_has_row_position line) as (k & names & y & Hp & _ & _ & Hc & _).
  - eapply list_elem_of_lookup_2. exact E.
  - exists line, k, names, y. auto.
Defined.






